(** * The weather scaler (src/weather_scaler.go), embedded and verified

    The scaler polls a weather service over HTTP, picks one temperature
    out of the first reading of the answer, and tells the autoscaler
    whether that temperature exceeds a threshold.

    Conventions of the embedding:
    - Go's [int] and [int64] are both 64 bits wide (the platforms KEDA is
      built for); an integer is a [Z] inside the 64-bit signed range.
    - A Go result pair [(v, err)] is a pair whose second component is an
      [option error]: [None] is Go's [nil].
    - A [float64] is a [spec_float] (the Standard Library's IEEE 754
      binary format, here at precision 53).
    - [map[string]string] is a [gmap string string].
    - Methods of [*weatherScaler] run in the [Go] monad below: a state
      holding the receiver object, the network and the clock, and a result
      that is either a value or a run-time panic. *)

From Stdlib Require Import ZArith String Ascii List Bool Lia.
From Stdlib Require Import Floats.SpecFloat.
From stdpp Require Import gmap strings.

Local Open Scope string_scope.
Local Open Scope Z_scope.

(** ** Machine integers *)

Definition min_int64 : Z := - 2 ^ 63.
Definition max_int64 : Z := 2 ^ 63 - 1.

Definition in_int64 (z : Z) : bool := (min_int64 <=? z) && (z <=? max_int64).

(** The conversion [int64(x)] of an integer: the low 64 bits, read as a
    signed number.  On a value already in range it changes nothing. *)
Definition int64 (z : Z) : Z := (z + 2 ^ 63) mod 2 ^ 64 - 2 ^ 63.

(** ** float64 and its conversion to int *)

(** The integer part of a finite float, fraction discarded.  [Z.quot]
    rounds toward zero.  Infinities and NaN have no integer part. *)
Definition float64_trunc (f : spec_float) : option Z :=
  match f with
  | S754_zero _ => Some 0
  | S754_finite s m e =>
      let n := if s then Z.neg m else Z.pos m in
      Some (if 0 <=? e then n * 2 ^ e else Z.quot n (2 ^ (- e)))
  | S754_infinity _ | S754_nan => None
  end.

(** ** What the source imports *)

Definition error := string.

Record http_Client := { Timeout : Z }.

(** The functions of Go's library and of KEDA's util package that the
    scaler calls without defining them, and the one point the language
    leaves to the implementation. *)
Class Platform := {
  (** [strconv.Atoi]: the parsed number and the error. *)
  Atoi : string -> Z * option error;
  (** [url.ParseRequestURI]: only the error; the caller drops the URL. *)
  ParseRequestURI : string -> option error;
  (** [kedautil.CreateHTTPClient], from the global timeout. *)
  CreateHTTPClient : Z -> http_Client;
  (** The result of [int(f)] when the integer part of [f] does not fit
      in an [int], or [f] has none: implementation-dependent in Go. *)
  unrepresentable : spec_float -> Z
}.

(** The conversion [int(f)] of a float64. *)
Definition int_of_float64 `{Platform} (f : spec_float) : Z :=
  match float64_trunc f with
  | Some z => if in_int64 z then z else int64 (unrepresentable f)
  | None => int64 (unrepresentable f)
  end.

(** [kedautil.NormalizeString]: slashes, dots, colons and percent signs
    become dashes. *)
Definition normalize_char (c : ascii) : ascii :=
  if (Ascii.eqb c "/" || Ascii.eqb c "." || Ascii.eqb c ":" || Ascii.eqb c "%")%char
  then "-"%char else c.

Fixpoint NormalizeString (s : string) : string :=
  match s with
  | EmptyString => EmptyString
  | String c rest => String (normalize_char c) (NormalizeString rest)
  end.

(** [fmt.Errorf(prefix ++ "%s", err)]. *)
Definition Errorf (prefix : string) (err : error) : error := String.append prefix err.

(** The constant [externalMetricType] of package scalers. *)
Definition externalMetricType : string := "External".

(** ** Kubernetes API values the scaler builds *)

Variant Format := DecimalExponent | BinarySI | DecimalSI.

Record Quantity := { amount : Z; format : Format }.

(** [resource.NewQuantity]. *)
Definition NewQuantity (value : Z) (fmt : Format) : Quantity :=
  {| amount := value; format := fmt |}.

Variant MetricTargetType :=
  UtilizationMetricType | ValueMetricType | AverageValueMetricType.

Record MetricIdentifier := { Name : string }.

(** Fields the scaler leaves unset ([Value], [AverageUtilization]) are
    omitted. *)
Record MetricTarget := {
  Type_ : MetricTargetType;
  AverageValue : option Quantity
}.

Record ExternalMetricSource := {
  Metric : MetricIdentifier;
  Target : MetricTarget
}.

Record MetricSpec := {
  External : option ExternalMetricSource;
  SourceType : string
}.

Record ExternalMetricValue := {
  MetricName : string;
  Value : Quantity;
  Timestamp : Z
}.

(** ** The scaler's own data *)

Record weatherMetadata := {
  threshold : Z;
  host : string;
  preference : string
}.

(** [metadata] is a pointer in the source; it is never nil in a scaler
    that [NewWeatherScaler] returned, and the struct it points to is held
    here in place. *)
Record weatherScaler := {
  metadata : weatherMetadata;
  httpClient : http_Client
}.

Record WeatherData := {
  MinTemp : spec_float;
  MaxTemp : spec_float;
  TheTemp : spec_float
}.

(** [List] is a slice of pointers: an element decoded from a JSON [null]
    is the nil pointer, [None]. *)
Record WeatherDataList := {
  List_ : list (option WeatherData)
}.

Record ScalerConfig := {
  GlobalHTTPTimeout : Z;
  TriggerMetadata : gmap string string
}.

(** ** Construction *)

Section Construction.
Context `{Platform}.

(** The zero value of the struct, [weatherMetadata{}]. *)
Definition zero_metadata : weatherMetadata :=
  {| threshold := 0; host := ""; preference := "" |}.

(** The first [if] of [parseWeatherMetadata]: the metadata after it, or
    the error it returns. *)
Definition parse_threshold (config : ScalerConfig) (meta : weatherMetadata)
  : weatherMetadata + error :=
  match TriggerMetadata config !! "threshold" with
  | Some val =>
      if negb (String.eqb val "") then
        match Atoi val with
        | (_, Some err) => inr (Errorf "threshold: error parsing threshold " err)
        | (n, None) =>
            inl {| threshold := int64 n; host := host meta;
                   preference := preference meta |}
        end
      else inl meta
  | None => inl meta
  end.

Definition parseWeatherMetadata (config : ScalerConfig)
  : option weatherMetadata * option error :=
  match parse_threshold config zero_metadata with
  | inr err => (None, Some err)
  | inl meta =>
      match TriggerMetadata config !! "host" with
      | Some val =>
          match ParseRequestURI val with
          | Some err => (None, Some (Errorf "invalid URL: " err))
          | None =>
              (* a missing key reads as the empty string *)
              let pref := default "" (TriggerMetadata config !! "preference") in
              if String.eqb pref "" then (None, Some "no preference given")
              else (Some {| threshold := threshold meta; host := val;
                            preference := pref |}, None)
          end
      | None => (None, Some "no host URI given")
      end
  end.

Definition NewWeatherScaler (config : ScalerConfig)
  : option weatherScaler * option error :=
  let httpClient := CreateHTTPClient (GlobalHTTPTimeout config) in
  match parseWeatherMetadata config with
  | (_, Some err) => (None, Some (Errorf "error parsing weather metadata: " err))
  (* not reached: parseWeatherMetadata returns a struct or an error *)
  | (None, None) => (None, None)
  | (Some weatherMetadata, None) =>
      (Some {| metadata := weatherMetadata; httpClient := httpClient |}, None)
  end.

End Construction.

(** ** The world a query runs in *)

(** A response body, told apart by what [json.Unmarshal] makes of it when
    decoding into an empty [WeatherDataList]: an error (and whatever was
    filled in before it), or the decoded document. *)
Variant bytes :=
  | Garbled (err : error) (partial : WeatherDataList)
  | Document (w : WeatherDataList).

(** [request.Body]: reading it to the end fails or gives the bytes. *)
Variant ReadCloser :=
  | Broken (err : error)
  | Stream (b : bytes).

Record Response := { Body : ReadCloser }.

(** One round trip: what [httpClient.Get] returns, and how long it took. *)
Record exchange := {
  took : Z;
  answer : Response + error
}.

Record State := {
  (** the object behind the receiver [s] *)
  self : weatherScaler;
  (** the network: the exchange that the k-th GET of this run, to the
      given URL, meets *)
  remote : nat -> string -> exchange;
  (** the URLs requested so far, the latest first *)
  sent : list string;
  (** the wall clock *)
  clock : Z
}.

Variant panic :=
  | IndexOutOfRange (index len : nat)
  | NilDereference.

Variant outcome (A : Type) :=
  | Done (a : A)
  | Crash (p : panic).
Arguments Done {A} a.
Arguments Crash {A} p.

Definition Go (A : Type) : Type := State -> outcome A * State.

#[global] Instance Go_ret : MRet Go := fun A a st => (Done a, st).

#[global] Instance Go_bind : MBind Go := fun A B k m st =>
  match m st with
  | (Done a, st') => k a st'
  | (Crash p, st') => (Crash p, st')
  end.

Definition raise {A} (p : panic) : Go A := fun st => (Crash p, st).

(** Reading the receiver. *)
Definition this : Go weatherScaler := fun st => (Done (self st), st).

(** [c.Get(url)]: the request goes out, time passes, the answer is in. *)
Definition Get (c : http_Client) (url : string) : Go (Response + error) :=
  fun st =>
    let x := remote st (List.length (sent st)) url in
    (Done (answer x),
     {| self := self st; remote := remote st;
        sent := url :: sent st; clock := clock st + took x |}).

(** [ioutil.ReadAll]. *)
Definition ReadAll (r : ReadCloser) : bytes + error :=
  match r with
  | Broken err => inr err
  | Stream b => inl b
  end.

(** [json.Unmarshal(body, &out)], [out] holding an empty list. *)
Definition Unmarshal (body : bytes) (out : WeatherDataList)
  : WeatherDataList * option error :=
  match body with
  | Garbled err partial => (partial, Some err)
  | Document w => (w, None)
  end.

(** [metav1.Now()]. *)
Definition Now : Go Z := fun st => (Done (clock st), st).

(** [l[i]] on a slice: out of range is a run-time panic. *)
Definition index {A} (l : list A) (i : nat) : Go A :=
  match l !! i with
  | Some x => mret x
  | None => raise (IndexOutOfRange i (List.length l))
  end.

(** [p.field] through a pointer: nil is a run-time panic. *)
Definition deref {A} (p : option A) : Go A :=
  match p with
  | Some x => mret x
  | None => raise NilDereference
  end.

(** ** The queries *)

Section Queries.
Context `{Platform}.

(** Returns the value [out] holds afterwards, and the error. *)
Definition getJSONData (out : WeatherDataList)
  : Go (WeatherDataList * option error) :=
  s ← this ;
  r ← Get (httpClient s) (host (metadata s)) ;
  match r with
  | inr err => mret (out, Some err)
  | inl request =>
      match ReadAll (Body request) with
      | inr err => mret (out, Some err)
      | inl body =>
          match Unmarshal body out with
          | (out', Some err) => mret (out', Some err)
          | (out', None) => mret (out', None)
          end
      end
  end.

Definition getWeather : Go (Z * option error) :=
  let temp := 0 in
  let wDat := {| List_ := [] |} in
  '(wDat, err) ← getJSONData wDat ;
  match err with
  | Some err => mret (100, Some err)
  | None =>
      s ← this ;
      let pref := preference (metadata s) in
      if String.eqb pref "MinTemp" then
        p ← index (List_ wDat) 0 ; d ← deref p ;
        mret (int_of_float64 (MinTemp d), None)
      else if String.eqb pref "MaxTemp" then
        p ← index (List_ wDat) 0 ; d ← deref p ;
        mret (int_of_float64 (MaxTemp d), None)
      else if String.eqb pref "TheTemp" then
        p ← index (List_ wDat) 0 ; d ← deref p ;
        mret (int_of_float64 (TheTemp d), None)
      else mret (temp, None)
  end.

Definition IsActive (ctx : unit) : Go (bool * option error) :=
  '(temperature, err) ← getWeather ;
  match err with
  | Some err => mret (false, Some err)
  | None =>
      s ← this ;
      mret (int64 temperature >? threshold (metadata s), None)
  end.

Definition GetMetricSpecForScaling : Go (list MetricSpec) :=
  s ← this ;
  let targetMetricValue := NewQuantity (int64 (threshold (metadata s))) DecimalSI in
  let externalMetric :=
    (* Sprintf with the format %s returns its argument *)
    {| Metric := {| Name := NormalizeString "weather" |};
       Target := {| Type_ := AverageValueMetricType;
                    AverageValue := Some targetMetricValue |} |} in
  let metricSpec :=
    {| External := Some externalMetric; SourceType := externalMetricType |} in
  mret [metricSpec].

Definition GetMetrics (ctx : unit) (metricName : string)
    (metricSelector : list (string * string))
  : Go (list ExternalMetricValue * option error) :=
  '(temp, _) ← getWeather ;
  now ← Now ;
  let metric :=
    {| MetricName := metricName;
       Value := NewQuantity (int64 temp) DecimalSI;
       Timestamp := now |} in
  mret (([] ++ [metric])%list, None).

Definition Close : Go (option error) := mret None.

End Queries.

(** ** Vocabulary of the statements *)

(** The exchange the next GET of the scaler will meet, and the state the
    GET leaves behind. *)
Definition upcoming (st : State) : exchange :=
  remote st (List.length (sent st)) (host (metadata (self st))).

Definition fetched (st : State) : State :=
  {| self := self st; remote := remote st;
     sent := host (metadata (self st)) :: sent st;
     clock := clock st + took (upcoming st) |}.

(** The answer whose body decodes to [w]. *)
Definition decodes_to (w : WeatherDataList) : Response + error :=
  inl {| Body := Stream (Document w) |}.

Definition recognized (pref : string) : Prop :=
  pref = "MinTemp" \/ pref = "MaxTemp" \/ pref = "TheTemp".

Section ConstructionVocabulary.
Context `{Platform}.

Definition constructs (config : ScalerConfig) : Prop :=
  exists s, NewWeatherScaler config = (Some s, None).

(** The threshold value is there and parses as an integer. *)
Definition threshold_parses (config : ScalerConfig) : Prop :=
  exists val n,
    TriggerMetadata config !! "threshold" = Some val /\ Atoi val = (n, None).

(** No threshold value to parse: the key is absent or maps to the empty
    string. *)
Definition threshold_unset (config : ScalerConfig) : Prop :=
  TriggerMetadata config !! "threshold" = None \/
  TriggerMetadata config !! "threshold" = Some "".

(** The host is there and the URI check accepts it. *)
Definition host_valid (config : ScalerConfig) : Prop :=
  exists val,
    TriggerMetadata config !! "host" = Some val /\ ParseRequestURI val = None.

Definition preference_given (config : ScalerConfig) : Prop :=
  default "" (TriggerMetadata config !! "preference") <> "".

End ConstructionVocabulary.

(** ** A platform and inputs to run the code on *)

Definition digit (c : ascii) : option Z :=
  let n := Z.of_nat (nat_of_ascii c) in
  if (48 <=? n) && (n <=? 57) then Some (n - 48) else None.

Definition is_digit (c : ascii) : bool :=
  match digit c with Some _ => true | None => false end.

Fixpoint digits (acc : Z) (s : string) : option Z :=
  match s with
  | EmptyString => Some acc
  | String c rest =>
      match digit c with
      | Some d => digits (10 * acc + d) rest
      | None => None
      end
  end.

(** A string between double quotes, as the format %q prints a string of
    printable characters that holds no quote and no backslash. *)
Definition quoted (s : string) : string :=
  String "034"%char (String.append s (String "034"%char EmptyString)).

(** The text of a [*strconv.NumError] of [Atoi]. *)
Definition NumError (s msg : string) : error :=
  String.append "strconv.Atoi: parsing "
    (String.append (quoted s) (String.append ": " msg)).

(** Decimal parsing as [strconv.Atoi] does it: an optional sign, at least
    one digit, nothing else, the value inside [int]. *)
Definition decimal_Atoi (s : string) : Z * option error :=
  let '(negative, body) :=
    match s with
    | String "-"%char rest => (true, rest)
    | String "+"%char rest => (false, rest)
    | _ => (false, s)
    end in
  match body with
  | EmptyString => (0, Some (NumError s "invalid syntax"))
  | _ =>
      match digits 0 body with
      | None => (0, Some (NumError s "invalid syntax"))
      | Some n =>
          let v := if negative then - n else n in
          if in_int64 v then (v, None)
          else (if negative then min_int64 else max_int64,
                Some (NumError s "value out of range"))
      end
  end.

Definition is_letter (c : ascii) : bool :=
  let n := Z.of_nat (nat_of_ascii c) in
  ((65 <=? n) && (n <=? 90)) || ((97 <=? n) && (n <=? 122)).

(** Whether the string opens with a scheme: a letter, then letters,
    digits, [+], [-] or [.], then a colon. *)
Fixpoint has_scheme (first : bool) (s : string) : bool :=
  match s with
  | EmptyString => false
  | String c rest =>
      if is_letter c then has_scheme false rest
      else if first then false
      else if Ascii.eqb c ":" then true
      else if (is_digit c || Ascii.eqb c "+" || Ascii.eqb c "-" || Ascii.eqb c ".")%char
           then has_scheme false rest
      else false
  end.

Definition is_control (c : ascii) : bool :=
  let n := Z.of_nat (nat_of_ascii c) in (n <? 32) || (n =? 127).

Fixpoint contains_control (s : string) : bool :=
  match s with
  | EmptyString => false
  | String c rest => is_control c || contains_control rest
  end.

(** [getScheme] of net/url: a colon in first place is an error; a scheme
    is a letter, then letters, digits, [+], [-] or [.], up to a colon;
    anything else means there is no scheme. *)
Variant scheme_result :=
  | MissingScheme
  | NoScheme
  | Scheme (rest : string).

Fixpoint getScheme (first : bool) (s : string) : scheme_result :=
  match s with
  | EmptyString => NoScheme
  | String c rest =>
      if is_letter c then getScheme false rest
      else if (is_digit c || Ascii.eqb c "+" || Ascii.eqb c "-" || Ascii.eqb c ".")%char
           then (if first then NoScheme else getScheme false rest)
      else if Ascii.eqb c ":"
           then (if first then MissingScheme else Scheme rest)
      else NoScheme
  end.

(** The part of the string before the first of the two characters. *)
Fixpoint before (stop1 stop2 : ascii) (s : string) : string :=
  match s with
  | EmptyString => EmptyString
  | String c rest =>
      if (Ascii.eqb c stop1 || Ascii.eqb c stop2)%char then EmptyString
      else String c (before stop1 stop2 rest)
  end.

Fixpoint contains_at (s : string) : bool :=
  match s with
  | EmptyString => false
  | String c rest => Ascii.eqb c "@" || contains_at rest
  end.

(** The part after the last at-sign, the whole string if there is none. *)
Fixpoint after_last_at (s : string) : string :=
  match s with
  | EmptyString => EmptyString
  | String c rest =>
      if contains_at rest then after_last_at rest
      else if Ascii.eqb c "@" then rest else s
  end.

(** The characters a host may hold unescaped, and the percent sign. *)
Definition allowed_in_host (c : ascii) : bool :=
  is_letter c || is_digit c ||
  existsb (Ascii.eqb c)
    (list_ascii_of_string "-_.~!$&'()*+,;=:[]<>%") ||
  Ascii.eqb c "034".

(** The first character of a host that needs escaping, if any. *)
Fixpoint first_not_allowed (s : string) : option ascii :=
  match s with
  | EmptyString => None
  | String c rest =>
      if allowed_in_host c then first_not_allowed rest else Some c
  end.

(** The text of a [*url.Error] of the parser. *)
Definition url_Error (rawURL msg : string) : error :=
  String.append "parse "
    (String.append (quoted rawURL) (String.append ": " msg)).

(** The outline of [url.ParseRequestURI], in the order of net/url's
    [parse]: control characters and the empty string are refused, a lone
    star is accepted, the scheme is split off, a string without scheme
    must open with a slash, and after a scheme and two slashes the host
    may hold no character that needs escaping.  Left out: the checks of
    user information, port, bracketed addresses and percent escapes. *)
Definition outline_ParseRequestURI (rawURL : string) : option error :=
  if contains_control rawURL then
    Some (url_Error rawURL "net/url: invalid control character in URL")
  else if String.eqb rawURL "" then Some (url_Error rawURL "empty url")
  else if String.eqb rawURL "*" then None
  else
    match getScheme true rawURL with
    | MissingScheme => Some (url_Error rawURL "missing protocol scheme")
    | NoScheme =>
        if String.prefix "/" rawURL then None
        else Some (url_Error rawURL "invalid URI for request")
    | Scheme rest =>
        if String.prefix "//" rest then
          let authority := before "/" "?" (String.substring 2 (String.length rest) rest) in
          let hostport := after_last_at authority in
          match first_not_allowed hostport with
          | None => None
          | Some c =>
              Some (url_Error rawURL
                      (String.append "invalid character "
                         (String.append (quoted (String c EmptyString))
                            " in host name")))
          end
        else None
    end.

(** An amd64 build: a float-to-int conversion that cannot represent its
    result yields the smallest integer. *)
Definition amd64 : Platform :=
  {| Atoi := decimal_Atoi;
     ParseRequestURI := outline_ParseRequestURI;
     CreateHTTPClient := fun timeout => {| Timeout := timeout |};
     unrepresentable := fun _ => min_int64 |}.

(** Floats of the examples: 25.7, 15.2, 5.9 and -5.9 as binary64. *)
Definition f25_7 : spec_float := S754_finite false 7233906901463859 (-48).
Definition f15_2 : spec_float := S754_finite false 8556839292003942 (-49).
Definition f5_9 : spec_float := S754_finite false 6642809450371482 (-50).
Definition fneg5_9 : spec_float := S754_finite true 6642809450371482 (-50).

Definition reading : WeatherData :=
  {| MinTemp := f5_9; MaxTemp := f25_7; TheTemp := f15_2 |}.

Definition example_config (pairs : list (string * string)) : ScalerConfig :=
  {| GlobalHTTPTimeout := 3000; TriggerMetadata := list_to_map pairs |}.

Definition example_scaler (pref : string) : weatherScaler :=
  {| metadata := {| threshold := 20; host := "https://api.example/w";
                    preference := pref |};
     httpClient := {| Timeout := 3000 |} |}.

(** A state in which every GET meets the same answer after 40 ticks. *)
Definition example_state (pref : string) (a : Response + error) : State :=
  {| self := example_scaler pref;
     remote := fun _ _ => {| took := 40; answer := a |};
     sent := [];
     clock := 1000 |}.

Definition config_without_threshold : ScalerConfig :=
  example_config [("host", "https://api.example/w"); ("preference", "TheTemp")].

Definition config_empty_threshold : ScalerConfig :=
  example_config [("threshold", ""); ("host", "https://api.example/w");
                  ("preference", "TheTemp")].

Definition config_threshold_42 : ScalerConfig :=
  example_config [("threshold", "42"); ("host", "https://api.example/w");
                  ("preference", "TheTemp")].

(** A computation that leaves the receiver's object as it found it. *)
Definition keeps_self {A} (m : Go A) : Prop :=
  forall st, self (m st).2 = self st.

(** The state with another threshold stored in the scaler, all else the
    same. *)
Definition with_threshold (t : Z) (st : State) : State :=
  {| self := {| metadata := {| threshold := t;
                               host := host (metadata (self st));
                               preference := preference (metadata (self st)) |};
                httpClient := httpClient (self st) |};
     remote := remote st; sent := sent st; clock := clock st |}.

(** The configuration with one more key. *)
Definition with_key (k v : string) (config : ScalerConfig) : ScalerConfig :=
  {| GlobalHTTPTimeout := GlobalHTTPTimeout config;
     TriggerMetadata := <[k := v]> (TriggerMetadata config) |}.

Definition config_bad_threshold : ScalerConfig :=
  example_config [("threshold", "4x2"); ("preference", "TheTemp")].

Definition config_without_host : ScalerConfig :=
  example_config [("threshold", "42")].

Definition config_bad_host : ScalerConfig :=
  example_config [("threshold", "42"); ("host", "api.example/w");
                  ("preference", "TheTemp")].

Definition config_without_preference : ScalerConfig :=
  example_config [("threshold", "42"); ("host", "https://api.example/w")].

Definition config_lowercase_preference : ScalerConfig :=
  example_config [("threshold", "-3"); ("host", "https://api.example/w");
                  ("preference", "mintemp")].

(** A state around a given scaler, every GET meeting the same answer. *)
Definition state_of (s : weatherScaler) (a : Response + error) : State :=
  {| self := s;
     remote := fun _ _ => {| took := 40; answer := a |};
     sent := [];
     clock := 1000 |}.

Definition scaler_42 : weatherScaler :=
  {| metadata := {| threshold := 42; host := "https://api.example/w";
                    preference := "TheTemp" |};
     httpClient := {| Timeout := 3000 |} |}.

Definition scaler_lowercase : weatherScaler :=
  {| metadata := {| threshold := -3; host := "https://api.example/w";
                    preference := "mintemp" |};
     httpClient := {| Timeout := 3000 |} |}.

(** What it means for an integer to be a float with its fraction dropped
    toward zero: the integer has the float's sign (or is zero), and the
    float's magnitude, the mantissa times two to the exponent, lies from
    the integer's magnitude up to, but not reaching, one more. *)
Definition truncates_to (f : spec_float) (z : Z) : Prop :=
  match f with
  | S754_zero _ => z = 0
  | S754_finite s m e =>
      (if s then z <= 0 else 0 <= z) /\
      Z.abs z * 2 ^ Z.max (- e) 0
        <= Z.pos m * 2 ^ Z.max e 0
        < (Z.abs z + 1) * 2 ^ Z.max (- e) 0
  | S754_infinity _ | S754_nan => False
  end.

(** 1e19 as binary64: a finite float above the largest [int]. *)
Definition f1e19 : spec_float := S754_finite false 4882812500000000 11.

Definition hot_reading : WeatherData :=
  {| MinTemp := f5_9; MaxTemp := f1e19; TheTemp := f1e19 |}.

(** The host is there, the URI check accepts it, and it opens with a
    scheme, as every absolute URI does. *)
Definition host_absolute_URI `{Platform} (config : ScalerConfig) : Prop :=
  exists val,
    TriggerMetadata config !! "host" = Some val /\
    ParseRequestURI val = None /\
    has_scheme true val = true.

Definition config_path_host : ScalerConfig :=
  example_config [("threshold", "42"); ("host", "/w");
                  ("preference", "TheTemp")].

(** * Properties *)

(** ** Integers and floats *)

Lemma in_int64_spec (z : Z) :
  in_int64 z = true <-> - 2 ^ 63 <= z <= 2 ^ 63 - 1.
Proof.
  unfold in_int64, min_int64, max_int64.
  rewrite andb_true_iff, !Z.leb_le. reflexivity.
Qed.

Lemma int64_id (z : Z) : in_int64 z = true -> int64 z = z.
Proof.
  rewrite in_int64_spec. intros Hz. unfold int64.
  rewrite Z.mod_small; lia.
Qed.

Lemma in_int64_int64 (z : Z) : in_int64 (int64 z) = true.
Proof.
  apply in_int64_spec. unfold int64.
  pose proof (Z.mod_pos_bound (z + 2 ^ 63) (2 ^ 64) ltac:(lia)). lia.
Qed.

Section Conversion.
Context `{Platform}.

(** Where the integer part fits, [int(f)] is the integer part. *)
Lemma int_of_float64_exact (f : spec_float) (z : Z) :
  float64_trunc f = Some z -> in_int64 z = true -> int_of_float64 f = z.
Proof.
  intros Hf Hz. unfold int_of_float64. rewrite Hf, Hz. reflexivity.
Qed.

(** [int(f)] is an [int], whatever [f]. *)
Lemma int_of_float64_range (f : spec_float) :
  in_int64 (int_of_float64 f) = true.
Proof.
  unfold int_of_float64.
  destruct (float64_trunc f) as [z|]; [|apply in_int64_int64].
  destruct (in_int64 z) eqn:Hz; [exact Hz|apply in_int64_int64].
Qed.
End Conversion.

(** The integer part drops the fraction: it is the one integer between
    zero and the float that is less than one away from it. *)
Lemma float64_trunc_toward_zero (s : bool) (m : positive) (e z : Z) :
  e < 0 ->
  float64_trunc (S754_finite s m e) = Some z ->
  let q := Z.abs z in
  q * 2 ^ (- e) <= Z.pos m < (q + 1) * 2 ^ (- e) /\
  (if s then z <= 0 else 0 <= z).
Proof.
  intros He Hz. simpl in Hz.
  destruct (0 <=? e) eqn:E; [apply Z.leb_le in E; lia|].
  injection Hz as <-.
  assert (Hp : 0 < 2 ^ (- e)) by (apply Z.pow_pos_nonneg; lia).
  set (d := 2 ^ (- e)) in *.
  assert (Hm : Z.pos m / d * d <= Z.pos m < (Z.pos m / d + 1) * d).
  { pose proof (Z.div_mod (Z.pos m) d ltac:(lia)).
    pose proof (Z.mod_pos_bound (Z.pos m) d Hp). nia. }
  assert (H0 : 0 <= Z.pos m / d) by (apply Z.div_pos; lia).
  assert (Hquot : Z.quot (Z.pos m) d = Z.pos m / d)
    by (apply Z.quot_div_nonneg; lia).
  destruct s; cbv zeta.
  - change (Z.neg m) with (- Z.pos m).
    rewrite Z.quot_opp_l, Hquot, Z.abs_opp, Z.abs_eq by lia.
    split; [exact Hm | lia].
  - rewrite Hquot, Z.abs_eq by lia. split; [exact Hm | lia].
Qed.

(** The conversion computes that integer: what [truncates_to] describes
    is what [float64_trunc] returns. *)
Lemma truncates_to_float64_trunc (f : spec_float) (z : Z) :
  truncates_to f z -> float64_trunc f = Some z.
Proof.
  destruct f as [s | s | | s m e]; cbn; try tauto.
  - now intros ->.
  - intros [Hs Hb]. f_equal.
    destruct (0 <=? e) eqn:E.
    + apply Z.leb_le in E.
      rewrite (Z.max_l e 0), (Z.max_r (- e) 0) in Hb by lia.
      change (2 ^ 0) with 1 in Hb.
      destruct s; [change (Z.neg m) with (- Z.pos m)|]; lia.
    + apply Z.leb_gt in E.
      rewrite (Z.max_r e 0), (Z.max_l (- e) 0) in Hb by lia.
      change (2 ^ 0) with 1 in Hb.
      assert (Hp : 0 < 2 ^ (- e)) by (apply Z.pow_pos_nonneg; lia).
      set (d := 2 ^ (- e)) in *.
      assert (Hq : Z.abs z = Z.pos m / d).
      { apply Z.div_unique with (r := Z.pos m - d * Z.abs z); lia. }
      assert (Hquot : Z.quot (Z.pos m) d = Z.pos m / d)
        by (apply Z.quot_div_nonneg; lia).
      destruct s.
      * change (Z.neg m) with (- Z.pos m).
        rewrite Z.quot_opp_l, Hquot by lia. lia.
      * rewrite Hquot. lia.
Qed.

(** ** Fetching and decoding *)

Ltac run_go :=
  unfold mbind, Go_bind, mret, Go_ret, this, Get, raise; cbn beta iota zeta.

Section Fetch.
Context `{Platform}.
Implicit Types (st : State) (out w : WeatherDataList) (err : error).

(** [getJSONData] issues exactly one GET and never panics. *)
Lemma getJSONData_fetched out st :
  exists r, getJSONData out st = (Done r, fetched st).
Proof.
  unfold getJSONData. run_go. fold (upcoming st). fold (fetched st).
  destruct (answer (upcoming st)) as [[[e|[e p|w]]]|e]; cbn; eauto.
Qed.

Lemma getJSONData_refused out st err :
  answer (upcoming st) = inr err ->
  getJSONData out st = (Done (out, Some err), fetched st).
Proof.
  intros Ha. unfold getJSONData. run_go. fold (upcoming st).
  rewrite Ha. reflexivity.
Qed.

Lemma getJSONData_broken out st err :
  answer (upcoming st) = inl {| Body := Broken err |} ->
  getJSONData out st = (Done (out, Some err), fetched st).
Proof.
  intros Ha. unfold getJSONData. run_go. fold (upcoming st).
  rewrite Ha. reflexivity.
Qed.

Lemma getJSONData_garbled out st err partial :
  answer (upcoming st) = inl {| Body := Stream (Garbled err partial) |} ->
  getJSONData out st = (Done (partial, Some err), fetched st).
Proof.
  intros Ha. unfold getJSONData. run_go. fold (upcoming st).
  rewrite Ha. reflexivity.
Qed.

Lemma getJSONData_document out st w :
  answer (upcoming st) = decodes_to w ->
  getJSONData out st = (Done (w, None), fetched st).
Proof.
  intros Ha. unfold getJSONData. run_go. fold (upcoming st).
  rewrite Ha. reflexivity.
Qed.

Lemma getJSONData_end out st r st' :
  getJSONData out st = (r, st') -> st' = fetched st.
Proof.
  destruct (getJSONData_fetched out st) as [r' ->]. now intros [= _ <-].
Qed.

(** An error of [getJSONData] is one of the three the exchange can
    carry: of the GET, of reading the body, of decoding it. *)
Lemma getJSONData_error_inv out out' st st' err :
  getJSONData out st = (Done (out', Some err), st') ->
  st' = fetched st /\
  (answer (upcoming st) = inr err \/
   answer (upcoming st) = inl {| Body := Broken err |} \/
   exists partial,
     answer (upcoming st) = inl {| Body := Stream (Garbled err partial) |}).
Proof.
  unfold getJSONData. run_go. fold (upcoming st). fold (fetched st).
  destruct (answer (upcoming st)) as [[[e|[e p|w]]]|e]; cbn;
    intros [= <- <- <-]; eauto.
Qed.

(** The state does not change between the receiver's fields and the
    GET: [fetched] keeps the receiver. *)
Lemma self_fetched st : self (fetched st) = self st.
Proof. reflexivity. Qed.

(** *** getWeather, case by case *)

Lemma getWeather_error st st' out err :
  getJSONData {| List_ := [] |} st = (Done (out, Some err), st') ->
  getWeather st = (Done (100, Some err), st').
Proof.
  intros Hj. unfold getWeather. run_go. rewrite Hj. reflexivity.
Qed.

Lemma getWeather_MinTemp st st' w d rest :
  getJSONData {| List_ := [] |} st = (Done (w, None), st') ->
  preference (metadata (self st)) = "MinTemp" ->
  List_ w = Some d :: rest ->
  getWeather st = (Done (int_of_float64 (MinTemp d), None), st').
Proof.
  intros Hj Hp Hl. pose proof (getJSONData_end _ _ _ _ Hj) as ->.
  unfold getWeather. run_go. rewrite Hj. cbn beta iota.
  change (self (fetched st)) with (self st).
  rewrite Hp, Hl. reflexivity.
Qed.

Lemma getWeather_MaxTemp st st' w d rest :
  getJSONData {| List_ := [] |} st = (Done (w, None), st') ->
  preference (metadata (self st)) = "MaxTemp" ->
  List_ w = Some d :: rest ->
  getWeather st = (Done (int_of_float64 (MaxTemp d), None), st').
Proof.
  intros Hj Hp Hl. pose proof (getJSONData_end _ _ _ _ Hj) as ->.
  unfold getWeather. run_go. rewrite Hj. cbn beta iota.
  change (self (fetched st)) with (self st).
  rewrite Hp, Hl. reflexivity.
Qed.

Lemma getWeather_TheTemp st st' w d rest :
  getJSONData {| List_ := [] |} st = (Done (w, None), st') ->
  preference (metadata (self st)) = "TheTemp" ->
  List_ w = Some d :: rest ->
  getWeather st = (Done (int_of_float64 (TheTemp d), None), st').
Proof.
  intros Hj Hp Hl. pose proof (getJSONData_end _ _ _ _ Hj) as ->.
  unfold getWeather. run_go. rewrite Hj. cbn beta iota.
  change (self (fetched st)) with (self st).
  rewrite Hp, Hl. reflexivity.
Qed.

Lemma getWeather_unrecognized st st' w :
  getJSONData {| List_ := [] |} st = (Done (w, None), st') ->
  ~ recognized (preference (metadata (self st))) ->
  getWeather st = (Done (0, None), st').
Proof.
  intros Hj Hp. pose proof (getJSONData_end _ _ _ _ Hj) as ->.
  unfold getWeather. run_go. rewrite Hj. cbn beta iota.
  change (self (fetched st)) with (self st).
  unfold recognized in Hp.
  destruct (String.eqb_spec (preference (metadata (self st))) "MinTemp");
    [tauto|].
  destruct (String.eqb_spec (preference (metadata (self st))) "MaxTemp");
    [tauto|].
  destruct (String.eqb_spec (preference (metadata (self st))) "TheTemp");
    [tauto|].
  reflexivity.
Qed.

Lemma getWeather_empty st st' w :
  getJSONData {| List_ := [] |} st = (Done (w, None), st') ->
  recognized (preference (metadata (self st))) ->
  List_ w = [] ->
  getWeather st = (Crash (IndexOutOfRange 0 0), st').
Proof.
  intros Hj Hp Hl. pose proof (getJSONData_end _ _ _ _ Hj) as ->.
  unfold getWeather. run_go. rewrite Hj. cbn beta iota.
  change (self (fetched st)) with (self st). rewrite Hl.
  destruct Hp as [-> | [-> | ->]]; reflexivity.
Qed.

(** *** IsActive after getWeather *)

Lemma IsActive_after st st' temperature :
  getWeather st = (Done (temperature, None), st') ->
  IsActive tt st =
    (Done (int64 temperature >? threshold (metadata (self st')), None), st').
Proof.
  intros Hw. unfold IsActive. run_go. rewrite Hw. reflexivity.
Qed.

End Fetch.

(** ** The activity decision *)

Section Activity.
Context `{Platform}.
Implicit Types (st : State) (w : WeatherDataList) (err : error).

(** C1, as the code has it.  With a preference among MinTemp, MaxTemp
    and TheTemp, and an answer that decodes to a sequence whose first
    element is a reading (not a JSON null), [IsActive] returns true
    exactly when the field the preference names (MinTemp, MaxTemp,
    TheTemp of that reading), with its fraction dropped toward zero, is
    strictly greater than the threshold, provided that integer fits in
    an [int]. *)
Theorem IsActive_compares_truncated_field st w d rest f z :
  answer (upcoming st) = decodes_to w ->
  List_ w = Some d :: rest ->
  (preference (metadata (self st)) = "MinTemp" /\ f = MinTemp d) \/
  (preference (metadata (self st)) = "MaxTemp" /\ f = MaxTemp d) \/
  (preference (metadata (self st)) = "TheTemp" /\ f = TheTemp d) ->
  truncates_to f z ->
  in_int64 z = true ->
  exists active,
    IsActive tt st = (Done (active, None), fetched st) /\
    (active = true <-> threshold (metadata (self st)) < z).
Proof.
  intros Ha Hl Hf Ht Hr.
  pose proof (truncates_to_float64_trunc f z Ht) as Hz.
  pose proof (getJSONData_document {| List_ := [] |} st w Ha) as Hj.
  assert (Hw : getWeather st = (Done (z, None), fetched st)).
  { destruct Hf as [[Hp ->] | [[Hp ->] | [Hp ->]]].
    - rewrite (getWeather_MinTemp _ _ _ _ _ Hj Hp Hl).
      now rewrite (int_of_float64_exact _ _ Hz Hr).
    - rewrite (getWeather_MaxTemp _ _ _ _ _ Hj Hp Hl).
      now rewrite (int_of_float64_exact _ _ Hz Hr).
    - rewrite (getWeather_TheTemp _ _ _ _ _ Hj Hp Hl).
      now rewrite (int_of_float64_exact _ _ Hz Hr). }
  exists (z >? threshold (metadata (self st))). split.
  - rewrite (IsActive_after _ _ _ Hw), (int64_id z Hr). reflexivity.
  - rewrite Z.gtb_ltb, Z.ltb_lt. reflexivity.
Qed.

(** C4.  What the code does on an empty sequence: with a recognized
    preference, [wDat.List[0]] is evaluated and the query panics with
    an index out of range; no error value is returned. *)
Theorem IsActive_empty_sequence_panics st w :
  answer (upcoming st) = decodes_to w ->
  List_ w = [] ->
  recognized (preference (metadata (self st))) ->
  IsActive tt st = (Crash (IndexOutOfRange 0 0), fetched st).
Proof.
  intros Ha Hl Hp.
  pose proof (getJSONData_document {| List_ := [] |} st w Ha) as Hj.
  unfold IsActive. run_go.
  rewrite (getWeather_empty _ _ _ Hj Hp Hl). reflexivity.
Qed.

(** An error that fetch-and-extract returns comes back from [IsActive]
    as it is, next to the value false. *)
Lemma IsActive_propagates_error st st' temp err :
  getWeather st = (Done (temp, Some err), st') ->
  IsActive tt st = (Done (false, Some err), st').
Proof.
  intros Hw. unfold IsActive. run_go. rewrite Hw. reflexivity.
Qed.

(** A panic of fetch-and-extract is not caught either. *)
Lemma IsActive_propagates_panic st st' p :
  getWeather st = (Crash p, st') -> IsActive tt st = (Crash p, st').
Proof.
  intros Hw. unfold IsActive. run_go. rewrite Hw. reflexivity.
Qed.

(** C6, as the code has it.  When the GET fails, or reading the body
    fails, or decoding it fails, [IsActive] returns that very error,
    unwrapped, next to the value false: [getJSONData] hands the error to
    [getWeather], which hands it on beside the number 100, and [IsActive]
    drops the number.  (Nothing is said here of a sequence that decodes
    to no reading: that is no error in the code.) *)
Theorem IsActive_exchange_error st err :
  answer (upcoming st) = inr err \/
  answer (upcoming st) = inl {| Body := Broken err |} \/
  (exists partial,
     answer (upcoming st) = inl {| Body := Stream (Garbled err partial) |}) ->
  IsActive tt st = (Done (false, Some err), fetched st).
Proof.
  intros Ha.
  assert (Hw : getWeather st = (Done (100, Some err), fetched st)).
  { destruct Ha as [Ha | [Ha | [partial Ha]]]; eapply getWeather_error.
    - apply getJSONData_refused, Ha.
    - apply getJSONData_broken, Ha.
    - apply getJSONData_garbled, Ha. }
  unfold IsActive. run_go. rewrite Hw. reflexivity.
Qed.

(** C8.  With a preference that is none of MinTemp, MaxTemp and TheTemp,
    a decoded answer (whatever its sequence, so also a non-empty one)
    makes the extraction return zero and no error, and [IsActive]
    compares 0 with the threshold. *)
Theorem unrecognized_preference_extracts_zero st w :
  answer (upcoming st) = decodes_to w ->
  ~ recognized (preference (metadata (self st))) ->
  getWeather st = (Done (0, None), fetched st) /\
  IsActive tt st =
    (Done (0 >? threshold (metadata (self st)), None), fetched st).
Proof.
  intros Ha Hp.
  pose proof (getJSONData_document {| List_ := [] |} st w Ha) as Hj.
  pose proof (getWeather_unrecognized _ _ _ Hj Hp) as Hw.
  split; [exact Hw|].
  rewrite (IsActive_after _ _ _ Hw). reflexivity.
Qed.

End Activity.

(** ** The reported metric *)

Section Metrics.
Context `{Platform}.
Implicit Types (st : State) (w : WeatherDataList) (err : error).

(** Fetch-and-extract ends in the state its one GET leaves, whether it
    returns or panics. *)
Lemma getWeather_fetched st : (getWeather st).2 = fetched st.
Proof.
  unfold getWeather. run_go.
  destruct (getJSONData_fetched {| List_ := [] |} st) as [[w [e|]] ->];
    [reflexivity|].
  destruct (String.eqb _ "MinTemp");
    [|destruct (String.eqb _ "MaxTemp");
      [|destruct (String.eqb _ "TheTemp")]];
    try reflexivity;
    destruct (List_ w) as [|[d|] l]; reflexivity.
Qed.

(** What fetch-and-extract returns is an [int]. *)
Lemma getWeather_int st st' temp e :
  getWeather st = (Done (temp, e), st') -> in_int64 temp = true.
Proof.
  unfold getWeather. run_go.
  destruct (getJSONData_fetched {| List_ := [] |} st) as [[w [e'|]] ->].
  { intros [= <- _ _]. reflexivity. }
  destruct (String.eqb _ "MinTemp");
    [|destruct (String.eqb _ "MaxTemp");
      [|destruct (String.eqb _ "TheTemp")]];
    try (destruct (List_ w) as [|[d|] l]; cbn; intros [= <- _ _];
         apply int_of_float64_range).
  intros [= <- _ _]. reflexivity.
Qed.

(** C7.  After a fetch-and-extract that succeeds with value [temp],
    [GetMetrics] returns one sample and no error; the sample has the
    caller's metric name, the value [temp], and the clock reading at
    the end of the fetch.  The call has issued its own GET: the state
    it ends in is the one that GET leaves. *)
Theorem GetMetrics_reports_extracted_value st st' temp name sel :
  getWeather st = (Done (temp, None), st') ->
  GetMetrics tt name sel st =
    (Done ([{| MetricName := name;
               Value := NewQuantity temp DecimalSI;
               Timestamp := clock st' |}], None), st') /\
  st' = fetched st.
Proof.
  intros Hw. split.
  - unfold GetMetrics, Now. run_go. rewrite Hw.
    rewrite (int64_id temp (getWeather_int _ _ _ _ Hw)). reflexivity.
  - pose proof (getWeather_fetched st) as Hf. rewrite Hw in Hf.
    exact Hf.
Qed.

(** C2, as the code has it.  When the fetch or the decoding fails,
    [GetMetrics] returns no error and one sample, whose value is 100:
    the number [getWeather] returns next to its error. *)
Theorem GetMetrics_swallows_error st st' out err name sel :
  getJSONData {| List_ := [] |} st = (Done (out, Some err), st') ->
  GetMetrics tt name sel st =
    (Done ([{| MetricName := name;
               Value := NewQuantity 100 DecimalSI;
               Timestamp := clock st' |}], None), st').
Proof.
  intros Hj. unfold GetMetrics, Now. run_go.
  rewrite (getWeather_error _ _ _ _ Hj). reflexivity.
Qed.

End Metrics.

(** ** The stored configuration is read, never written *)

Create HintDb frame.

Lemma keeps_self_mret {A} (a : A) : keeps_self (mret a).
Proof. intros st. reflexivity. Qed.

Lemma keeps_self_raise {A} (p : panic) : keeps_self (@raise A p).
Proof. intros st. reflexivity. Qed.

Lemma keeps_self_bind {A B} (m : Go A) (k : A -> Go B) :
  keeps_self m -> (forall a, keeps_self (k a)) -> keeps_self (m ≫= k).
Proof.
  intros Hm Hk st. unfold mbind, Go_bind.
  specialize (Hm st). destruct (m st) as [[a|p] st1]; cbn in *.
  - rewrite Hk. exact Hm.
  - exact Hm.
Qed.

Lemma keeps_self_this : keeps_self this.
Proof. intros st. reflexivity. Qed.

Lemma keeps_self_Get c url : keeps_self (Get c url).
Proof. intros st. reflexivity. Qed.

Lemma keeps_self_Now : keeps_self Now.
Proof. intros st. reflexivity. Qed.

Lemma keeps_self_index {A} (l : list A) i : keeps_self (index l i).
Proof. unfold index. destruct (l !! i); intros st; reflexivity. Qed.

Lemma keeps_self_deref {A} (p : option A) : keeps_self (deref p).
Proof. destruct p; intros st; reflexivity. Qed.

#[global] Hint Resolve keeps_self_mret keeps_self_raise keeps_self_this
  keeps_self_Get keeps_self_Now keeps_self_index keeps_self_deref : frame.

Ltac frame :=
  repeat first
    [ solve [auto with frame]
    | progress cbv zeta
    | apply keeps_self_bind; [|intros ?]
    | match goal with
      | |- keeps_self (match ?x with _ => _ end) => destruct x
      | |- keeps_self (let '(_, _) := ?x in _) => destruct x
      end ].

Section Frame.
Context `{Platform}.

Lemma keeps_self_getJSONData out : keeps_self (getJSONData out).
Proof. unfold getJSONData. frame. Qed.

Lemma keeps_self_getWeather : keeps_self getWeather.
Proof.
  unfold getWeather. pose proof keeps_self_getJSONData. frame.
Qed.

Lemma keeps_self_IsActive ctx : keeps_self (IsActive ctx).
Proof. unfold IsActive. pose proof keeps_self_getWeather. frame. Qed.

Lemma keeps_self_GetMetrics ctx name sel :
  keeps_self (GetMetrics ctx name sel).
Proof. unfold GetMetrics. pose proof keeps_self_getWeather. frame. Qed.

Lemma keeps_self_GetMetricSpecForScaling :
  keeps_self GetMetricSpecForScaling.
Proof. unfold GetMetricSpecForScaling. frame. Qed.

(** C9.  [IsActive], [GetMetrics], [GetMetricSpecForScaling] and
    [Close] each end, by return or by panic, in a state whose scaler
    object is the one they started with: threshold, host and preference
    are as construction stored them. *)
Theorem queries_keep_configuration st ctx name sel :
  metadata (self (IsActive ctx st).2) = metadata (self st) /\
  metadata (self (GetMetrics ctx name sel st).2) = metadata (self st) /\
  metadata (self (GetMetricSpecForScaling st).2) = metadata (self st) /\
  metadata (self (Close st).2) = metadata (self st).
Proof.
  rewrite keeps_self_IsActive, keeps_self_GetMetrics,
    keeps_self_GetMetricSpecForScaling.
  repeat split.
Qed.

End Frame.

(** ** Construction *)

Section ConstructionProperties.
Context `{Platform}.
Implicit Types (config : ScalerConfig) (meta : weatherMetadata).

(** The threshold step goes through exactly when there is nothing to
    parse or the value parses. *)
Lemma parse_threshold_ok config :
  (exists meta, parse_threshold config zero_metadata = inl meta) <->
  threshold_unset config \/ threshold_parses config.
Proof.
  unfold parse_threshold, threshold_unset, threshold_parses.
  destruct (TriggerMetadata config !! "threshold") as [val|] eqn:Hv.
  - destruct (String.eqb_spec val "") as [-> | Hne]; cbn.
    + split; eauto.
    + destruct (Atoi val) as [n [err|]] eqn:Ha; split.
      * intros [meta [=]].
      * intros [[[=] | [= ->]] | (val' & n' & [= <-] & Hp)];
          [now destruct Hne | congruence].
      * intros _. right. eauto.
      * eauto.
  - split; eauto.
Qed.

(** A threshold that the step stores is an [int64]. *)
Lemma parse_threshold_int64 config meta :
  parse_threshold config zero_metadata = inl meta ->
  in_int64 (threshold meta) = true.
Proof.
  unfold parse_threshold.
  destruct (TriggerMetadata config !! "threshold") as [val|].
  - destruct (String.eqb val ""); [intros [= <-]; reflexivity|].
    destruct (Atoi val) as [n [err|]]; [intros [=]|].
    intros [= <-]. apply in_int64_int64.
  - intros [= <-]. reflexivity.
Qed.

(** With nothing to parse, the threshold stays at zero. *)
Lemma parse_threshold_unset config :
  threshold_unset config ->
  parse_threshold config zero_metadata = inl zero_metadata.
Proof.
  unfold parse_threshold. intros [-> | ->]; reflexivity.
Qed.

Lemma NewWeatherScaler_inv config s e :
  NewWeatherScaler config = (Some s, e) ->
  exists meta val,
    parse_threshold config zero_metadata = inl meta /\
    TriggerMetadata config !! "host" = Some val /\
    ParseRequestURI val = None /\
    preference_given config /\
    e = None /\
    s = {| metadata :=
             {| threshold := threshold meta; host := val;
                preference := default "" (TriggerMetadata config !! "preference") |};
           httpClient := CreateHTTPClient (GlobalHTTPTimeout config) |}.
Proof.
  unfold NewWeatherScaler, parseWeatherMetadata, preference_given.
  destruct (parse_threshold config zero_metadata) as [meta|err];
    [|intros [=]].
  destruct (TriggerMetadata config !! "host") as [val|]; [|intros [=]].
  destruct (ParseRequestURI val) as [err|] eqn:Hu; [intros [=]|].
  destruct (String.eqb_spec
              (default "" (TriggerMetadata config !! "preference")) "")
    as [Hp | Hp]; [intros [=]|].
  intros [= <- <-]. exists meta, val. repeat split; auto.
Qed.

Lemma NewWeatherScaler_intro config meta val :
  parse_threshold config zero_metadata = inl meta ->
  TriggerMetadata config !! "host" = Some val ->
  ParseRequestURI val = None ->
  preference_given config ->
  NewWeatherScaler config =
    (Some {| metadata :=
               {| threshold := threshold meta; host := val;
                  preference := default "" (TriggerMetadata config !! "preference") |};
             httpClient := CreateHTTPClient (GlobalHTTPTimeout config) |},
     None).
Proof.
  unfold NewWeatherScaler, parseWeatherMetadata, preference_given.
  intros -> -> -> Hp.
  destruct (String.eqb_spec
              (default "" (TriggerMetadata config !! "preference")) "")
    as [Hp' | Hp']; [contradiction|reflexivity].
Qed.

(** C3, as the code has it.  Construction succeeds exactly when the
    threshold is absent, empty or parses as an integer, the host is
    there and [url.ParseRequestURI] accepts it, and the preference is
    not empty.  Where the threshold is absent or empty, the scaler
    constructed has the threshold 0. *)
Theorem construction_succeeds_iff config :
  (constructs config <->
   (threshold_unset config \/ threshold_parses config) /\
   host_valid config /\
   preference_given config) /\
  (forall s,
     NewWeatherScaler config = (Some s, None) ->
     threshold_unset config ->
     threshold (metadata s) = 0).
Proof.
  split.
  - unfold constructs, host_valid. split.
    + intros [s Hs].
      destruct (NewWeatherScaler_inv _ _ _ Hs)
        as (meta & val & Ht & Hh & Hu & Hp & _ & _).
      repeat split; [|eauto|exact Hp].
      apply parse_threshold_ok. eauto.
    + intros (Ht & (val & Hh & Hu) & Hp).
      apply parse_threshold_ok in Ht as [meta Ht].
      eexists. apply (NewWeatherScaler_intro _ _ _ Ht Hh Hu Hp).
  - intros s Hs Hunset.
    destruct (NewWeatherScaler_inv _ _ _ Hs)
      as (meta & val & Ht & _ & _ & _ & _ & ->).
    rewrite (parse_threshold_unset _ Hunset) in Ht.
    injection Ht as <-. reflexivity.
Qed.

(** C10.  With the threshold key mapped to the empty string, a host the
    URI check accepts and a preference that is not empty, construction
    succeeds and stores the threshold 0; the same configuration without
    the threshold key constructs the same scaler. *)
Theorem empty_threshold_is_zero config val :
  TriggerMetadata config !! "threshold" = Some "" ->
  TriggerMetadata config !! "host" = Some val ->
  ParseRequestURI val = None ->
  preference_given config ->
  NewWeatherScaler config =
    (Some {| metadata :=
               {| threshold := 0; host := val;
                  preference := default "" (TriggerMetadata config !! "preference") |};
             httpClient := CreateHTTPClient (GlobalHTTPTimeout config) |},
     None) /\
  NewWeatherScaler
    {| GlobalHTTPTimeout := GlobalHTTPTimeout config;
       TriggerMetadata := delete "threshold" (TriggerMetadata config) |} =
  NewWeatherScaler config.
Proof.
  intros Ht Hh Hu Hp.
  assert (Hc : NewWeatherScaler config =
    (Some {| metadata :=
               {| threshold := 0; host := val;
                  preference := default "" (TriggerMetadata config !! "preference") |};
             httpClient := CreateHTTPClient (GlobalHTTPTimeout config) |},
     None)).
  { apply (NewWeatherScaler_intro config zero_metadata val); auto.
    apply parse_threshold_unset. right. exact Ht. }
  split; [exact Hc|]. rewrite Hc.
  set (config' := {| GlobalHTTPTimeout := GlobalHTTPTimeout config;
                     TriggerMetadata := delete "threshold" (TriggerMetadata config) |}).
  assert (Hpref : TriggerMetadata config' !! "preference" =
                  TriggerMetadata config !! "preference")
    by (apply lookup_delete_ne; discriminate).
  rewrite <- Hpref.
  apply (NewWeatherScaler_intro config' zero_metadata val).
  - apply parse_threshold_unset. left. apply lookup_delete_eq.
  - cbn. rewrite lookup_delete_ne by discriminate. exact Hh.
  - exact Hu.
  - unfold preference_given. rewrite Hpref. exact Hp.
Qed.

(** C5.  In any state that holds a scaler which construction returned,
    [GetMetricSpecForScaling] returns one descriptor: an external
    metric named weather, of the average-value kind, whose target is
    the stored threshold, zero included.  The state it ends in is the
    state it started in: no request goes out and nothing is read from
    the network or the clock. *)
Theorem GetMetricSpecForScaling_declares_threshold config s st :
  NewWeatherScaler config = (Some s, None) ->
  self st = s ->
  GetMetricSpecForScaling st =
    (Done [ {| External :=
                 Some {| Metric := {| Name := "weather" |};
                         Target :=
                           {| Type_ := AverageValueMetricType;
                              AverageValue :=
                                Some (NewQuantity (threshold (metadata s))
                                        DecimalSI) |} |};
               SourceType := "External" |} ], st).
Proof.
  intros Hs Hst.
  destruct (NewWeatherScaler_inv _ _ _ Hs)
    as (meta & val & Ht & _ & _ & _ & _ & ->).
  unfold GetMetricSpecForScaling. run_go. rewrite Hst. cbn.
  rewrite (int64_id _ (parse_threshold_int64 _ _ Ht)). reflexivity.
Qed.

End ConstructionProperties.

(** ** The code run on concrete inputs *)

(** The fraction is dropped, not rounded: 5.9 gives 5, 25.7 gives 25, and
    -5.9 gives -5 (toward zero, not down). *)
Example float64_trunc_examples :
  float64_trunc f5_9 = Some 5 /\
  float64_trunc f25_7 = Some 25 /\
  float64_trunc fneg5_9 = Some (-5).
Proof. repeat split. Qed.

(** The first scenario of the specification: threshold 20, TheTemp, one
    reading at 25.7. *)
Example scenario_active :
  let st := example_state "TheTemp"
              (decodes_to {| List_ := [Some {| MinTemp := f5_9; MaxTemp := f25_7;
                                              TheTemp := f25_7 |}] |}) in
  (IsActive (H := amd64) tt st).1 = Done (true, None) /\
  (GetMetrics (H := amd64) tt "weather" [] st).1 =
    Done ([{| MetricName := "weather"; Value := NewQuantity 25 DecimalSI;
              Timestamp := 1040 |}], None).
Proof. split; reflexivity. Qed.

(** The second scenario: the same, at 15.2. *)
Example scenario_inactive :
  let st := example_state "TheTemp" (decodes_to {| List_ := [Some reading] |}) in
  (IsActive (H := amd64) tt st).1 = Done (false, None) /\
  (GetMetrics (H := amd64) tt "weather" [] st).1 =
    Done ([{| MetricName := "weather"; Value := NewQuantity 15 DecimalSI;
              Timestamp := 1040 |}], None).
Proof. split; reflexivity. Qed.

(** A JSON [null] as first element is a nil pointer: the query panics. *)
Example null_reading_panics :
  (IsActive (H := amd64) tt
     (example_state "MinTemp" (decodes_to {| List_ := [None] |}))).1 =
  Crash NilDereference.
Proof. reflexivity. Qed.

Lemma IsActive_compares_truncated_field_witness :
  let st := example_state "MaxTemp" (decodes_to {| List_ := [Some reading] |}) in
  exists active,
    IsActive (H := amd64) tt st = (Done (active, None), fetched st) /\
    (active = true <-> 20 < 25).
Proof.
  apply (@IsActive_compares_truncated_field amd64
           (example_state "MaxTemp" (decodes_to {| List_ := [Some reading] |}))
           {| List_ := [Some reading] |} reading [] f25_7 25).
  - reflexivity.
  - reflexivity.
  - right. left. split; reflexivity.
  - vm_compute. repeat split; discriminate.
  - reflexivity.
Defined.

(** C1 as stated fails on two inputs.  A sequence whose first element is
    a JSON null is not empty, and [IsActive] does not return on it.  A
    reading of 1e19 has the integer part 10^19, above the threshold 20,
    and on amd64 [IsActive] returns false: the conversion to [int]
    cannot hold that integer. *)
Lemma IsActive_null_or_large_reading :
  (let st := example_state "TheTemp" (decodes_to {| List_ := [None] |}) in
   ~ exists active,
       (IsActive (H := amd64) tt st).1 = Done (active, None)) /\
  (let st := example_state "TheTemp"
               (decodes_to {| List_ := [Some hot_reading] |}) in
   truncates_to (TheTemp hot_reading) (10 ^ 19) /\
   ~ exists active,
       (IsActive (H := amd64) tt st).1 = Done (active, None) /\
       (active = true <-> 20 < 10 ^ 19)).
Proof.
  split; [|split].
  - intros st [active Ha]. vm_compute in Ha. discriminate Ha.
  - vm_compute. repeat split; discriminate.
  - intros [active [Ha [_ Hlt]]]. vm_compute in Ha.
    injection Ha as <-. discriminate Hlt. reflexivity.
Qed.

Lemma IsActive_empty_sequence_panics_witness :
  let st := example_state "TheTemp" (decodes_to {| List_ := [] |}) in
  IsActive (H := amd64) tt st = (Crash (IndexOutOfRange 0 0), fetched st).
Proof.
  apply (@IsActive_empty_sequence_panics amd64
           (example_state "TheTemp" (decodes_to {| List_ := [] |}))
           {| List_ := [] |}).
  - reflexivity.
  - reflexivity.
  - right. right. reflexivity.
Defined.

Lemma IsActive_exchange_error_witness :
  let st := example_state "TheTemp" (inr "dial tcp: i/o timeout") in
  IsActive (H := amd64) tt st =
    (Done (false, Some "dial tcp: i/o timeout"), fetched st).
Proof.
  apply (@IsActive_exchange_error amd64
           (example_state "TheTemp" (inr "dial tcp: i/o timeout"))
           "dial tcp: i/o timeout").
  left. reflexivity.
Defined.

(** C6 as stated fails where the data is absent: on an answer that
    decodes to an empty sequence [IsActive] returns no error at all. *)
Lemma IsActive_empty_sequence_returns_no_error :
  let st := example_state "TheTemp" (decodes_to {| List_ := [] |}) in
  ~ exists active err,
      (IsActive (H := amd64) tt st).1 = Done (active, Some err).
Proof.
  intros st (active & err & Ha). vm_compute in Ha. discriminate Ha.
Qed.

Lemma unrecognized_preference_extracts_zero_witness :
  let st := example_state "Humidity" (decodes_to {| List_ := [Some reading] |}) in
  getWeather (H := amd64) st = (Done (0, None), fetched st) /\
  IsActive (H := amd64) tt st = (Done (0 >? 20, None), fetched st).
Proof.
  apply (@unrecognized_preference_extracts_zero amd64
           (example_state "Humidity" (decodes_to {| List_ := [Some reading] |}))
           {| List_ := [Some reading] |}).
  - reflexivity.
  - intros [Hp | [Hp | Hp]]; discriminate Hp.
Defined.

Lemma GetMetrics_reports_extracted_value_witness :
  let st := example_state "MinTemp" (decodes_to {| List_ := [Some reading] |}) in
  GetMetrics (H := amd64) tt "s0-weather" [] st =
    (Done ([{| MetricName := "s0-weather";
               Value := NewQuantity 5 DecimalSI;
               Timestamp := 1040 |}], None), fetched st) /\
  fetched st = fetched st.
Proof.
  apply (@GetMetrics_reports_extracted_value amd64
           (example_state "MinTemp" (decodes_to {| List_ := [Some reading] |}))
           (fetched (example_state "MinTemp"
                       (decodes_to {| List_ := [Some reading] |})))
           5 "s0-weather" []).
  reflexivity.
Defined.

Lemma GetMetrics_swallows_error_witness :
  let st := example_state "TheTemp" (inl {| Body := Broken "unexpected EOF" |}) in
  GetMetrics (H := amd64) tt "s0-weather" [] st =
    (Done ([{| MetricName := "s0-weather";
               Value := NewQuantity 100 DecimalSI;
               Timestamp := 1040 |}], None), fetched st).
Proof.
  apply (@GetMetrics_swallows_error amd64
           (example_state "TheTemp" (inl {| Body := Broken "unexpected EOF" |}))
           (fetched (example_state "TheTemp"
                       (inl {| Body := Broken "unexpected EOF" |})))
           {| List_ := [] |} "unexpected EOF" "s0-weather" []).
  reflexivity.
Defined.

(** C2 as stated fails: with the network down, the sample that
    [GetMetrics] returns has the value 100, not 0. *)
Lemma GetMetrics_error_sample_is_not_zero :
  let st := example_state "TheTemp" (inr "dial tcp: i/o timeout") in
  ~ (exists sample,
       (GetMetrics (H := amd64) tt "s0-weather" [] st).1 = Done ([sample], None) /\
       amount (Value sample) = 0).
Proof.
  intros st [sample [Hs Hz]]. vm_compute in Hs.
  injection Hs as <-. discriminate Hz.
Qed.

(** C3 as stated fails on two inputs.  A configuration with no
    threshold constructs a scaler, so construction does not need a
    threshold that parses.  A configuration whose host is the path /w
    constructs a scaler too, and a path is no absolute URI. *)
Lemma construction_without_threshold_or_scheme :
  ~ (constructs (H := amd64) config_without_threshold <->
     threshold_parses (H := amd64) config_without_threshold /\
     host_absolute_URI (H := amd64) config_without_threshold /\
     preference_given config_without_threshold) /\
  ~ (constructs (H := amd64) config_path_host <->
     threshold_parses (H := amd64) config_path_host /\
     host_absolute_URI (H := amd64) config_path_host /\
     preference_given config_path_host).
Proof.
  split.
  - intros [Hc _].
    destruct Hc as [(val & n & Hv & _) _].
    + eexists. vm_compute. reflexivity.
    + vm_compute in Hv. discriminate Hv.
  - intros [Hc _].
    destruct Hc as (_ & (val & Hv & _ & Hs) & _).
    + eexists. vm_compute. reflexivity.
    + vm_compute in Hv. injection Hv as <-.
      vm_compute in Hs. discriminate Hs.
Qed.

Lemma construction_succeeds_iff_witness :
  constructs (H := amd64) config_without_threshold /\
  forall s,
    NewWeatherScaler (H := amd64) config_without_threshold = (Some s, None) ->
    threshold (metadata s) = 0.
Proof.
  split.
  - apply (proj1 (@construction_succeeds_iff amd64 config_without_threshold)).
    split; [left; left; reflexivity|].
    split; [exists "https://api.example/w"; split; reflexivity|].
    vm_compute. discriminate.
  - intros s Hs.
    apply (proj2 (@construction_succeeds_iff amd64 config_without_threshold) s Hs).
    left. reflexivity.
Defined.

Lemma empty_threshold_is_zero_witness :
  NewWeatherScaler (H := amd64) config_empty_threshold =
    (Some {| metadata := {| threshold := 0; host := "https://api.example/w";
                            preference := "TheTemp" |};
             httpClient := {| Timeout := 3000 |} |}, None) /\
  NewWeatherScaler (H := amd64)
    {| GlobalHTTPTimeout := 3000;
       TriggerMetadata := delete "threshold" (TriggerMetadata config_empty_threshold) |} =
  NewWeatherScaler (H := amd64) config_empty_threshold.
Proof.
  apply (@empty_threshold_is_zero amd64 config_empty_threshold
           "https://api.example/w").
  - reflexivity.
  - reflexivity.
  - reflexivity.
  - vm_compute. discriminate.
Defined.

Lemma GetMetricSpecForScaling_declares_threshold_witness :
  let st := {| self := {| metadata := {| threshold := 42;
                                         host := "https://api.example/w";
                                         preference := "TheTemp" |};
                          httpClient := {| Timeout := 3000 |} |};
               remote := fun _ _ => {| took := 40; answer := inr "no route to host" |};
               sent := []; clock := 1000 |} in
  GetMetricSpecForScaling st =
    (Done [ {| External :=
                 Some {| Metric := {| Name := "weather" |};
                         Target := {| Type_ := AverageValueMetricType;
                                      AverageValue := Some (NewQuantity 42 DecimalSI) |} |};
               SourceType := "External" |} ], st).
Proof.
  intros st.
  apply (@GetMetricSpecForScaling_declares_threshold amd64
           config_threshold_42 (self st) st).
  - reflexivity.
  - reflexivity.
Defined.


(** * More of the scaler's behaviour *)

(** ** Construction: which error, and what is stored *)

Section ConstructionErrors.
Context `{Platform}.
Implicit Types (config : ScalerConfig) (err : error).

(** X1.  [NewWeatherScaler] returns a scaler and no error, or no scaler
    and an error; the error is that of [parseWeatherMetadata] behind the
    prefix "error parsing weather metadata: ". *)
Theorem NewWeatherScaler_scaler_or_error config :
  (exists s, NewWeatherScaler config = (Some s, None)) \/
  (exists err,
     parseWeatherMetadata config = (None, Some err) /\
     NewWeatherScaler config =
       (None, Some (Errorf "error parsing weather metadata: " err))).
Proof.
  unfold NewWeatherScaler, parseWeatherMetadata.
  destruct (parse_threshold config zero_metadata) as [meta|err]; [|eauto].
  destruct (TriggerMetadata config !! "host") as [val|]; [|eauto].
  destruct (ParseRequestURI val) as [err|]; [eauto|].
  destruct (String.eqb _ ""); eauto.
Qed.

(** X2.  A threshold that is there, not empty, and that [strconv.Atoi]
    refuses makes construction fail with the threshold error, whatever
    the host and the preference are: the threshold is looked at first. *)
Theorem unparsable_threshold_fails_first config val n err :
  TriggerMetadata config !! "threshold" = Some val ->
  val <> "" ->
  Atoi val = (n, Some err) ->
  NewWeatherScaler config =
    (None, Some (Errorf "error parsing weather metadata: "
                   (Errorf "threshold: error parsing threshold " err))).
Proof.
  intros Hv Hne Ha.
  unfold NewWeatherScaler, parseWeatherMetadata, parse_threshold.
  rewrite Hv. destruct (String.eqb_spec val "") as [He | _]; [contradiction|].
  cbn. rewrite Ha. reflexivity.
Qed.

(** X3.  With a threshold that passes, a configuration without the host
    key fails with "no host URI given", also when the preference is
    missing too: the host is looked at before the preference. *)
Theorem missing_host_fails config :
  threshold_unset config \/ threshold_parses config ->
  TriggerMetadata config !! "host" = None ->
  NewWeatherScaler config =
    (None, Some "error parsing weather metadata: no host URI given").
Proof.
  intros Ht Hh. apply parse_threshold_ok in Ht as [meta Ht].
  unfold NewWeatherScaler, parseWeatherMetadata. rewrite Ht, Hh.
  reflexivity.
Qed.

(** X4.  With a threshold that passes, a host that
    [url.ParseRequestURI] refuses fails with that function's error behind
    "invalid URL: ". *)
Theorem refused_host_fails config val err :
  threshold_unset config \/ threshold_parses config ->
  TriggerMetadata config !! "host" = Some val ->
  ParseRequestURI val = Some err ->
  NewWeatherScaler config =
    (None, Some (Errorf "error parsing weather metadata: "
                   (Errorf "invalid URL: " err))).
Proof.
  intros Ht Hh Hu. apply parse_threshold_ok in Ht as [meta Ht].
  unfold NewWeatherScaler, parseWeatherMetadata. rewrite Ht, Hh, Hu.
  reflexivity.
Qed.

(** X5.  With a threshold that passes and a host that is accepted, a
    preference that is absent or empty fails with "no preference
    given". *)
Theorem missing_preference_fails config :
  threshold_unset config \/ threshold_parses config ->
  host_valid config ->
  TriggerMetadata config !! "preference" = None \/
  TriggerMetadata config !! "preference" = Some "" ->
  NewWeatherScaler config =
    (None, Some "error parsing weather metadata: no preference given").
Proof.
  intros Ht (val & Hh & Hu) Hp. apply parse_threshold_ok in Ht as [meta Ht].
  unfold NewWeatherScaler, parseWeatherMetadata. rewrite Ht, Hh, Hu.
  destruct Hp as [-> | ->]; reflexivity.
Qed.

(** X6.  A constructed scaler holds what the configuration says: the host
    and the preference are the map's values as they are, the client is
    made from the global timeout, and the threshold is the number
    [strconv.Atoi] read (its low 64 bits), or 0 when the value is absent
    or empty. *)
Theorem constructed_scaler_holds_configuration config s :
  NewWeatherScaler config = (Some s, None) ->
  TriggerMetadata config !! "host" = Some (host (metadata s)) /\
  TriggerMetadata config !! "preference" = Some (preference (metadata s)) /\
  httpClient s = CreateHTTPClient (GlobalHTTPTimeout config) /\
  threshold (metadata s) =
    match TriggerMetadata config !! "threshold" with
    | Some val => if String.eqb val "" then 0 else int64 (Atoi val).1
    | None => 0
    end.
Proof.
  intros Hs.
  destruct (NewWeatherScaler_inv _ _ _ Hs)
    as (meta & val & Ht & Hh & Hu & Hp & _ & ->).
  cbn. repeat split.
  - exact Hh.
  - unfold preference_given in Hp.
    destruct (TriggerMetadata config !! "preference") as [p|];
      [reflexivity | now destruct Hp].
  - unfold parse_threshold in Ht.
    destruct (TriggerMetadata config !! "threshold") as [v|].
    + destruct (String.eqb v ""); cbn in Ht.
      * now injection Ht as <-.
      * destruct (Atoi v) as [n [e|]]; [discriminate Ht|].
        now injection Ht as <-.
    + now injection Ht as <-.
Qed.

(** X7.  Construction reads the keys threshold, host and preference and
    no other: adding or changing any other key changes nothing. *)
Theorem construction_ignores_other_keys config k v :
  k <> "threshold" -> k <> "host" -> k <> "preference" ->
  NewWeatherScaler (with_key k v config) = NewWeatherScaler config.
Proof.
  intros Ht Hh Hp.
  unfold NewWeatherScaler, parseWeatherMetadata, parse_threshold, with_key.
  cbn [TriggerMetadata GlobalHTTPTimeout].
  rewrite !lookup_insert_ne by assumption. reflexivity.
Qed.

End ConstructionErrors.

(** ** The queries, from the first request to the result *)

Section QueryRuns.
Context `{Platform}.
Implicit Types (st : State) (w : WeatherDataList) (err : error).

Lemma getWeather_null st st' w rest :
  getJSONData {| List_ := [] |} st = (Done (w, None), st') ->
  recognized (preference (metadata (self st))) ->
  List_ w = None :: rest ->
  getWeather st = (Crash NilDereference, st').
Proof.
  intros Hj Hp Hl. pose proof (getJSONData_end _ _ _ _ Hj) as ->.
  unfold getWeather. run_go. rewrite Hj. cbn beta iota.
  change (self (fetched st)) with (self st). rewrite Hl.
  destruct Hp as [-> | [-> | ->]]; reflexivity.
Qed.

(** [IsActive] in terms of what fetch-and-extract gave. *)
Lemma IsActive_run ctx st :
  IsActive ctx st =
    (match (getWeather st).1 with
     | Done (_, Some err) => Done (false, Some err)
     | Done (temperature, None) =>
         Done (int64 temperature >? threshold (metadata (self st)), None)
     | Crash p => Crash p
     end, fetched st).
Proof.
  unfold IsActive. run_go. pose proof (getWeather_fetched st) as Hf.
  destruct (getWeather st) as [[[t [e|]]|p] st1]; cbn in Hf; subst st1;
    reflexivity.
Qed.

(** [GetMetrics] in terms of what fetch-and-extract gave. *)
Lemma GetMetrics_run ctx name sel st :
  GetMetrics ctx name sel st =
    (match (getWeather st).1 with
     | Done (temp, _) =>
         Done ([{| MetricName := name;
                   Value := NewQuantity (int64 temp) DecimalSI;
                   Timestamp := clock (fetched st) |}], None)
     | Crash p => Crash p
     end, fetched st).
Proof.
  unfold GetMetrics, Now. run_go. pose proof (getWeather_fetched st) as Hf.
  destruct (getWeather st) as [[[t e]|p] st1]; cbn in Hf; subst st1;
    reflexivity.
Qed.

(** X8.  Whatever happens (result, error or panic), [IsActive] and
    [GetMetrics] each send exactly one GET, to the stored host, and
    nothing else; [GetMetricSpecForScaling] and [Close] send none. *)
Theorem queries_send_one_GET st ctx name sel :
  sent (IsActive ctx st).2 = host (metadata (self st)) :: sent st /\
  sent (GetMetrics ctx name sel st).2 = host (metadata (self st)) :: sent st /\
  sent (GetMetricSpecForScaling st).2 = sent st /\
  sent (Close st).2 = sent st.
Proof.
  rewrite IsActive_run, GetMetrics_run. repeat split.
Qed.

(** X9.  When [GetMetrics] returns, its error is nil and its slice holds
    one sample: the caller's metric name, an [int64] value in decimal
    format, and the clock as it stands when the call ends. *)
Theorem GetMetrics_returns_one_sample ctx name sel st st' samples e :
  GetMetrics ctx name sel st = (Done (samples, e), st') ->
  e = None /\
  exists v,
    in_int64 v = true /\
    samples = [{| MetricName := name; Value := NewQuantity v DecimalSI;
                  Timestamp := clock st' |}].
Proof.
  rewrite GetMetrics_run.
  destruct (getWeather st).1 as [[t e']|p]; [|intros [=]].
  intros [= <- <- <-]. split; [reflexivity|].
  exists (int64 t). split; [apply in_int64_int64 | reflexivity].
Qed.

(** X10.  The missing length check reaches the metrics too: with a
    recognized preference and an answer that decodes to an empty
    sequence, [GetMetrics] panics with an index out of range. *)
Theorem GetMetrics_empty_sequence_panics ctx name sel st w :
  answer (upcoming st) = decodes_to w ->
  List_ w = [] ->
  recognized (preference (metadata (self st))) ->
  GetMetrics ctx name sel st = (Crash (IndexOutOfRange 0 0), fetched st).
Proof.
  intros Ha Hl Hp.
  pose proof (getJSONData_document {| List_ := [] |} st w Ha) as Hj.
  rewrite GetMetrics_run, (getWeather_empty _ _ _ Hj Hp Hl). reflexivity.
Qed.

(** X11.  With a recognized preference and an answer whose first element
    is a JSON null, both queries panic on the nil pointer. *)
Theorem null_first_reading_panics ctx name sel st w rest :
  answer (upcoming st) = decodes_to w ->
  List_ w = None :: rest ->
  recognized (preference (metadata (self st))) ->
  IsActive ctx st = (Crash NilDereference, fetched st) /\
  GetMetrics ctx name sel st = (Crash NilDereference, fetched st).
Proof.
  intros Ha Hl Hp.
  pose proof (getJSONData_document {| List_ := [] |} st w Ha) as Hj.
  rewrite IsActive_run, GetMetrics_run, (getWeather_null _ _ _ _ Hj Hp Hl).
  split; reflexivity.
Qed.

(** Fetch-and-extract looks at the scaler and at the head of the decoded
    sequence, nothing more. *)
Lemma getWeather_head st1 st2 w1 w2 :
  self st1 = self st2 ->
  answer (upcoming st1) = decodes_to w1 ->
  answer (upcoming st2) = decodes_to w2 ->
  List_ w1 !! 0%nat = List_ w2 !! 0%nat ->
  (getWeather st1).1 = (getWeather st2).1.
Proof.
  intros Hs Ha1 Ha2 Hh.
  pose proof (getJSONData_document {| List_ := [] |} st1 w1 Ha1) as Hj1.
  pose proof (getJSONData_document {| List_ := [] |} st2 w2 Ha2) as Hj2.
  unfold getWeather. run_go. rewrite Hj1, Hj2. cbn beta iota.
  change (self (fetched st1)) with (self st1).
  change (self (fetched st2)) with (self st2). rewrite Hs.
  destruct (List_ w1) as [|p1 l1], (List_ w2) as [|p2 l2];
    try discriminate Hh.
  - destruct (String.eqb _ "MinTemp");
      [|destruct (String.eqb _ "MaxTemp");
        [|destruct (String.eqb _ "TheTemp")]]; reflexivity.
  - injection Hh as ->.
    destruct (String.eqb _ "MinTemp");
      [|destruct (String.eqb _ "MaxTemp");
        [|destruct (String.eqb _ "TheTemp")]];
      try reflexivity; destruct p2; reflexivity.
Qed.

(** X12.  Only the first element of the decoded sequence counts: two
    answers with the same first element (or both empty) give the same
    activity and the same sample value, whatever follows it. *)
Theorem only_first_reading_counts ctx name sel st1 st2 w1 w2 :
  self st1 = self st2 ->
  answer (upcoming st1) = decodes_to w1 ->
  answer (upcoming st2) = decodes_to w2 ->
  List_ w1 !! 0%nat = List_ w2 !! 0%nat ->
  (IsActive ctx st1).1 = (IsActive ctx st2).1 /\
  match (GetMetrics ctx name sel st1).1, (GetMetrics ctx name sel st2).1 with
  | Done (m1, e1), Done (m2, e2) => Value <$> m1 = Value <$> m2 /\ e1 = e2
  | Crash p1, Crash p2 => p1 = p2
  | _, _ => False
  end.
Proof.
  intros Hs Ha1 Ha2 Hh.
  pose proof (getWeather_head _ _ _ _ Hs Ha1 Ha2 Hh) as Hw.
  rewrite !IsActive_run, !GetMetrics_run. cbn [fst]. rewrite Hw, Hs.
  split; [reflexivity|].
  destruct (getWeather st2).1 as [[t e]|p]; [split|]; reflexivity.
Qed.

(** X13.  The two queries agree: on the same exchange, when [IsActive]
    returns without error, [GetMetrics] returns one sample, and the
    activity is whether that sample's value is greater than the
    threshold. *)
Theorem IsActive_agrees_with_GetMetrics ctx name sel st st' active :
  IsActive ctx st = (Done (active, None), st') ->
  exists v,
    GetMetrics ctx name sel st =
      (Done ([{| MetricName := name; Value := NewQuantity v DecimalSI;
                 Timestamp := clock st' |}], None), st') /\
    active = (v >? threshold (metadata (self st))).
Proof.
  rewrite IsActive_run, GetMetrics_run.
  destruct (getWeather st).1 as [[t [e|]]|p]; intros [= <- <-].
  exists (int64 t). split; reflexivity.
Qed.

(** X14.  An error from [IsActive] is never made up: it is the error of
    the GET, of reading the body, or of decoding it, and the activity
    next to it is false. *)
Theorem IsActive_error_is_from_exchange ctx st st' active err :
  IsActive ctx st = (Done (active, Some err), st') ->
  active = false /\
  (answer (upcoming st) = inr err \/
   answer (upcoming st) = inl {| Body := Broken err |} \/
   exists partial,
     answer (upcoming st) = inl {| Body := Stream (Garbled err partial) |}).
Proof.
  unfold IsActive, getWeather. run_go.
  destruct (getJSONData {| List_ := [] |} st) as [[[out [e|]]|p] st1] eqn:Hj.
  - cbn. intros [= <- <- <-]. split; [reflexivity|].
    apply (getJSONData_error_inv _ _ _ _ _ Hj).
  - cbn.
    destruct (String.eqb _ "MinTemp");
      [|destruct (String.eqb _ "MaxTemp");
        [|destruct (String.eqb _ "TheTemp")]];
      destruct (List_ out) as [|[d|] l]; cbn; intros [=].
  - intros [=].
Qed.

(** X15.  [getJSONData] never panics and ends after one GET whatever
    the outcome, error included; it returns no error exactly when the
    GET returned a response whose body could be read and decoded, and
    what it leaves in [out] is then the decoded document. *)
Theorem getJSONData_succeeds_iff_decodes out out' st st' :
  (exists r, getJSONData out st = (Done r, fetched st)) /\
  (getJSONData out st = (Done (out', None), st') <->
   answer (upcoming st) = decodes_to out' /\ st' = fetched st).
Proof.
  split; [apply getJSONData_fetched|]. split.
  - unfold getJSONData. run_go. fold (upcoming st). fold (fetched st).
    destruct (answer (upcoming st)) as [[[e|[e p|w]]]|e]; cbn;
      intros [= <- <-]; split; reflexivity.
  - intros [Ha ->]. apply getJSONData_document, Ha.
Qed.

End QueryRuns.

(** ** The threshold and the preference, from configuration to query *)

Section Thresholds.
Context `{Platform}.
Implicit Types (st : State) (w : WeatherDataList) (err : error).

(** Fetch-and-extract does not look at the threshold. *)
Lemma getWeather_with_threshold t st :
  (getWeather (with_threshold t st)).1 = (getWeather st).1.
Proof.
  unfold getWeather, getJSONData. run_go.
  cbn [with_threshold self metadata host httpClient preference remote sent].
  fold (upcoming st).
  destruct (answer (upcoming st)) as [[[e|[e p|w]]]|e]; cbn; try reflexivity.
  destruct (String.eqb _ "MinTemp");
    [|destruct (String.eqb _ "MaxTemp");
      [|destruct (String.eqb _ "TheTemp")]];
    try reflexivity; destruct (List_ w) as [|[d|] l]; reflexivity.
Qed.

(** X16.  Raising the threshold never turns an inactive scaler active:
    if [IsActive] answers true at a threshold, then on the same exchange
    it answers true at every lower threshold. *)
Theorem IsActive_antitone_in_threshold ctx st t1 t2 :
  t1 <= t2 ->
  (IsActive ctx (with_threshold t2 st)).1 = Done (true, None) ->
  (IsActive ctx (with_threshold t1 st)).1 = Done (true, None).
Proof.
  intros Hle. rewrite !IsActive_run. cbn [fst].
  rewrite !getWeather_with_threshold.
  destruct (getWeather st).1 as [[t [e|]]|p];
    [intros [=] | | intros [=]].
  cbn [with_threshold self metadata threshold].
  intros [= Hgt]. do 2 f_equal.
  rewrite Z.gtb_ltb, Z.ltb_lt in *. lia.
Qed.

(** X17.  The sample that [GetMetrics] reports does not depend on the
    threshold: name, value and timestamp are the same at any threshold. *)
Theorem GetMetrics_independent_of_threshold ctx name sel st t :
  (GetMetrics ctx name sel (with_threshold t st)).1 =
  (GetMetrics ctx name sel st).1.
Proof.
  rewrite !GetMetrics_run. cbn [fst].
  rewrite getWeather_with_threshold. reflexivity.
Qed.

(** X18.  Construction does not compare the preference with the three
    names: a scaler constructed with any other non-empty preference
    answers every decoded exchange as if the temperature were 0, without
    an error. *)
Theorem unchecked_preference_reads_zero config s ctx name sel st w :
  NewWeatherScaler config = (Some s, None) ->
  ~ recognized (default "" (TriggerMetadata config !! "preference")) ->
  self st = s ->
  answer (upcoming st) = decodes_to w ->
  IsActive ctx st = (Done (0 >? threshold (metadata s), None), fetched st) /\
  GetMetrics ctx name sel st =
    (Done ([{| MetricName := name; Value := NewQuantity 0 DecimalSI;
               Timestamp := clock (fetched st) |}], None), fetched st).
Proof.
  intros Hs Hp Hst Ha.
  destruct (NewWeatherScaler_inv _ _ _ Hs)
    as (meta & val & _ & _ & _ & _ & _ & Heq).
  assert (Hp' : ~ recognized (preference (metadata (self st))))
    by (rewrite Hst, Heq; exact Hp).
  pose proof (getJSONData_document {| List_ := [] |} st w Ha) as Hj.
  rewrite IsActive_run, GetMetrics_run,
    (getWeather_unrecognized _ _ _ Hj Hp'), Hst.
  split; reflexivity.
Qed.

(** X19.  The URL a query requests is the configuration's host value,
    character for character. *)
Theorem query_requests_configured_host config s ctx name sel st val :
  NewWeatherScaler config = (Some s, None) ->
  TriggerMetadata config !! "host" = Some val ->
  self st = s ->
  sent (IsActive ctx st).2 = val :: sent st /\
  sent (GetMetrics ctx name sel st).2 = val :: sent st.
Proof.
  intros Hs Hh Hst.
  destruct (NewWeatherScaler_inv _ _ _ Hs)
    as (meta & val' & _ & Hh' & _ & _ & _ & Heq).
  rewrite Hh in Hh'. injection Hh' as <-.
  rewrite IsActive_run, GetMetrics_run. cbn [snd fetched sent].
  rewrite Hst, Heq. split; reflexivity.
Qed.

End Thresholds.

(** ** These properties on concrete inputs *)

Lemma unparsable_threshold_fails_first_witness :
  NewWeatherScaler (H := amd64) config_bad_threshold =
    (None, Some (Errorf "error parsing weather metadata: "
                   (Errorf "threshold: error parsing threshold "
                      (NumError "4x2" "invalid syntax")))).
Proof.
  apply (@unparsable_threshold_fails_first amd64 config_bad_threshold
           "4x2" 0 (NumError "4x2" "invalid syntax")).
  - reflexivity.
  - discriminate.
  - reflexivity.
Defined.

Lemma missing_host_fails_witness :
  NewWeatherScaler (H := amd64) config_without_host =
    (None, Some "error parsing weather metadata: no host URI given").
Proof.
  apply (@missing_host_fails amd64 config_without_host).
  - right. exists "42", 42. split; reflexivity.
  - reflexivity.
Defined.

Lemma refused_host_fails_witness :
  NewWeatherScaler (H := amd64) config_bad_host =
    (None, Some (Errorf "error parsing weather metadata: "
                   (Errorf "invalid URL: "
                      (url_Error "api.example/w" "invalid URI for request")))).
Proof.
  apply (@refused_host_fails amd64 config_bad_host
           "api.example/w"
           (url_Error "api.example/w" "invalid URI for request")).
  - right. exists "42", 42. split; reflexivity.
  - reflexivity.
  - reflexivity.
Defined.

Lemma missing_preference_fails_witness :
  NewWeatherScaler (H := amd64) config_without_preference =
    (None, Some "error parsing weather metadata: no preference given").
Proof.
  apply (@missing_preference_fails amd64 config_without_preference).
  - right. exists "42", 42. split; reflexivity.
  - exists "https://api.example/w". split; reflexivity.
  - left. reflexivity.
Defined.

Lemma constructed_scaler_holds_configuration_witness :
  TriggerMetadata config_threshold_42 !! "host" = Some "https://api.example/w" /\
  TriggerMetadata config_threshold_42 !! "preference" = Some "TheTemp" /\
  httpClient scaler_42 = {| Timeout := 3000 |} /\
  42 = int64 (decimal_Atoi "42").1.
Proof.
  apply (@constructed_scaler_holds_configuration amd64
           config_threshold_42 scaler_42).
  reflexivity.
Defined.

Lemma construction_ignores_other_keys_witness :
  NewWeatherScaler (H := amd64)
    (with_key "metricName" "s0-weather" config_threshold_42) =
  NewWeatherScaler (H := amd64) config_threshold_42.
Proof.
  apply (@construction_ignores_other_keys amd64 config_threshold_42
           "metricName" "s0-weather").
  - discriminate.
  - discriminate.
  - discriminate.
Defined.

Lemma GetMetrics_returns_one_sample_witness :
  None = (None : option error) /\
  exists v,
    in_int64 v = true /\
    [{| MetricName := "s0-weather"; Value := NewQuantity 15 DecimalSI;
        Timestamp := 1040 |}] =
    [{| MetricName := "s0-weather"; Value := NewQuantity v DecimalSI;
        Timestamp := 1040 |}].
Proof.
  apply (@GetMetrics_returns_one_sample amd64 tt "s0-weather" []
           (state_of scaler_42 (decodes_to {| List_ := [Some reading] |}))
           (fetched (state_of scaler_42
                       (decodes_to {| List_ := [Some reading] |})))).
  reflexivity.
Defined.

Lemma GetMetrics_empty_sequence_panics_witness :
  let st := state_of scaler_42 (decodes_to {| List_ := [] |}) in
  GetMetrics (H := amd64) tt "s0-weather" [] st =
    (Crash (IndexOutOfRange 0 0), fetched st).
Proof.
  apply (@GetMetrics_empty_sequence_panics amd64 tt "s0-weather" []
           (state_of scaler_42 (decodes_to {| List_ := [] |}))
           {| List_ := [] |}).
  - reflexivity.
  - reflexivity.
  - right. right. reflexivity.
Defined.

Lemma null_first_reading_panics_witness :
  let st := state_of scaler_42 (decodes_to {| List_ := [None; Some reading] |}) in
  IsActive (H := amd64) tt st = (Crash NilDereference, fetched st) /\
  GetMetrics (H := amd64) tt "s0-weather" [] st =
    (Crash NilDereference, fetched st).
Proof.
  apply (@null_first_reading_panics amd64 tt "s0-weather" []
           (state_of scaler_42 (decodes_to {| List_ := [None; Some reading] |}))
           {| List_ := [None; Some reading] |} [Some reading]).
  - reflexivity.
  - reflexivity.
  - right. right. reflexivity.
Defined.

Lemma only_first_reading_counts_witness :
  let st1 := state_of scaler_42 (decodes_to {| List_ := [Some reading] |}) in
  let st2 := state_of scaler_42
               (decodes_to {| List_ := [Some reading; None; Some reading] |}) in
  (IsActive (H := amd64) tt st1).1 = (IsActive (H := amd64) tt st2).1 /\
  match (GetMetrics (H := amd64) tt "a" [] st1).1,
        (GetMetrics (H := amd64) tt "a" [] st2).1 with
  | Done (m1, e1), Done (m2, e2) => Value <$> m1 = Value <$> m2 /\ e1 = e2
  | Crash p1, Crash p2 => p1 = p2
  | _, _ => False
  end.
Proof.
  apply (@only_first_reading_counts amd64 tt "a" []
           (state_of scaler_42 (decodes_to {| List_ := [Some reading] |}))
           (state_of scaler_42
              (decodes_to {| List_ := [Some reading; None; Some reading] |}))
           {| List_ := [Some reading] |}
           {| List_ := [Some reading; None; Some reading] |}).
  - reflexivity.
  - reflexivity.
  - reflexivity.
  - reflexivity.
Defined.

Lemma IsActive_agrees_with_GetMetrics_witness :
  let st := example_state "MaxTemp" (decodes_to {| List_ := [Some reading] |}) in
  exists v,
    GetMetrics (H := amd64) tt "s0-weather" [] st =
      (Done ([{| MetricName := "s0-weather"; Value := NewQuantity v DecimalSI;
                 Timestamp := 1040 |}], None), fetched st) /\
    true = (v >? 20).
Proof.
  apply (@IsActive_agrees_with_GetMetrics amd64 tt "s0-weather" []
           (example_state "MaxTemp" (decodes_to {| List_ := [Some reading] |}))
           (fetched (example_state "MaxTemp"
                       (decodes_to {| List_ := [Some reading] |})))
           true).
  reflexivity.
Defined.

Lemma IsActive_error_is_from_exchange_witness :
  let a : Response + error :=
    inl {| Body := Stream (Garbled "unexpected end of JSON input"
                             {| List_ := [] |}) |} in
  false = false /\
  (a = inr "unexpected end of JSON input" \/
   a = inl {| Body := Broken "unexpected end of JSON input" |} \/
   exists partial,
     a = inl {| Body := Stream (Garbled "unexpected end of JSON input" partial) |}).
Proof.
  apply (@IsActive_error_is_from_exchange amd64 tt
           (state_of scaler_42
              (inl {| Body := Stream (Garbled "unexpected end of JSON input"
                                        {| List_ := [] |}) |}))
           (fetched (state_of scaler_42
              (inl {| Body := Stream (Garbled "unexpected end of JSON input"
                                        {| List_ := [] |}) |})))
           false "unexpected end of JSON input").
  reflexivity.
Defined.

Lemma IsActive_antitone_in_threshold_witness :
  let st := example_state "MaxTemp" (decodes_to {| List_ := [Some reading] |}) in
  (IsActive (H := amd64) tt (with_threshold 10 st)).1 = Done (true, None).
Proof.
  apply (@IsActive_antitone_in_threshold amd64 tt
           (example_state "MaxTemp" (decodes_to {| List_ := [Some reading] |}))
           10 24).
  - lia.
  - reflexivity.
Defined.

Lemma unchecked_preference_reads_zero_witness :
  let st := state_of scaler_lowercase
              (decodes_to {| List_ := [Some reading] |}) in
  IsActive (H := amd64) tt st = (Done (0 >? -3, None), fetched st) /\
  GetMetrics (H := amd64) tt "s0-weather" [] st =
    (Done ([{| MetricName := "s0-weather"; Value := NewQuantity 0 DecimalSI;
               Timestamp := 1040 |}], None), fetched st).
Proof.
  apply (@unchecked_preference_reads_zero amd64 config_lowercase_preference
           scaler_lowercase tt "s0-weather" []
           (state_of scaler_lowercase
              (decodes_to {| List_ := [Some reading] |}))
           {| List_ := [Some reading] |}).
  - reflexivity.
  - intros [Hp | [Hp | Hp]]; discriminate Hp.
  - reflexivity.
  - reflexivity.
Defined.

Lemma query_requests_configured_host_witness :
  let st := state_of scaler_42 (inr "dial tcp: i/o timeout") in
  sent (IsActive (H := amd64) tt st).2 = ["https://api.example/w"] /\
  sent (GetMetrics (H := amd64) tt "s0-weather" [] st).2 =
    ["https://api.example/w"].
Proof.
  apply (@query_requests_configured_host amd64 config_threshold_42
           scaler_42 tt "s0-weather" []
           (state_of scaler_42 (inr "dial tcp: i/o timeout"))
           "https://api.example/w").
  - reflexivity.
  - reflexivity.
  - reflexivity.
Defined.
